(** * httpclient: a shallow embedding of package [httpclient]

    The package wraps Go's [net/http] client.  The embedding keeps the
    package's own functions ([New], [Get], [makeRequest], [PostJSON],
    [PostForm], [Invoke], [Drop], [JSON], [WriteTo], [checkStatusCode])
    line by line, and passes the effects they have on the outside (timeout
    contexts and their cancel functions, the transport, response bodies)
    through an explicit world.  What the Go libraries compute ([url.Parse],
    [url.Values.Encode], [json.Marshal], [json.Decoder.Decode]) is taken
    through type classes, so that every theorem holds for any library
    behaviour. *)

From Stdlib Require Import ZArith String Ascii DecimalString.
From Stdlib Require DecimalPos DecimalZ.
From stdpp Require Import base option gmap strings list.

Local Open Scope Z_scope.

(** ** Errors, durations *)

(** Go's [error] values are observed through their message only. *)
Record error := errorString { Error : string }.

Module time.
(** [time.Duration] is a count of nanoseconds. *)
Definition Duration := Z.
Definition Second : Duration := 1000000000.
End time.

(** [strings.Contains]. *)
Definition Contains (s sub : string) : Prop :=
  ∃ pre post, s = pre +:+ sub +:+ post.

(** The [%d] verb of [fmt] on an integer. *)
Definition fmt_d (n : Z) : string := NilZero.string_of_int (Z.to_int n).

(** ** Libraries the package calls *)

(** [net/url]: the type [*url.URL], [url.Parse], and [url.Values.Encode]. *)
Class NetURL := {
  URL : Type;
  url_Parse : string → URL + error;
  Values_Encode : gmap string (list string) → string
}.

(** [encoding/json] at a Go type [T]: [json.Marshal] of a value, and
    [Decoder.Decode] into a target holding [old], reading a stream that
    delivers [data] and then ends with end-of-file ([None]) or with a read
    error.  [Decode] gives the target's new content and its error. *)
Class JSONCodec (T : Type) := {
  json_Marshal : T → string + error;
  json_Decode : string → option error → T → T * option error
}.

(** ** [net/http] values *)

(** [http.Header]: canonical key to values. *)
Abbreviation Header := (gmap string (list string)).

(** [Header.Set] replaces the values of the key by the single [value].  The
    keys this package sets are already in canonical form. *)
Definition Header_Set (key value : string) (h : Header) : Header :=
  <[key := [value]]> h.

(** [Header.Get]: the first value of the key, or the empty string. *)
Definition Header_Get (key : string) (h : Header) : string :=
  match h !! key with
  | Some (v :: _) => v
  | _ => EmptyString
  end.

(** What a call comes to: a returned value, or a panic. *)
Inductive outcome (A : Type) :=
| Returned (a : A)
| Panicked.
Arguments Returned {A} a.
Arguments Panicked {A}.

Section Package.
Context `{NetURL}.

(** [*http.Request]: the fields this package sets or that its callers
    observe.  [ReqBody] is the content of the reader handed to
    [NewRequestWithContext] ([None] for a nil reader), [Context] the
    timeout context the request is bound to. *)
Record HttpRequest := {
  Method : string;
  ReqURL : URL;
  ReqHeader : Header;
  ReqBody : option string;
  Context : nat
}.

(** [*http.Response]: status code and the handle of its body stream. *)
Record HttpResponse := {
  StatusCode : Z;
  Body : nat
}.

(** [http.Transport] as built by [New]: only the proxy is set. *)
Record Transport := { Proxy : URL }.

Inductive CookieJar := cookiejar_New.

(** [http.Client]. *)
Record http_Client := {
  Jar : option CookieJar;
  client_Transport : option Transport
}.

(** ** The package's data *)

Record Client := {
  client : http_Client;
  Timeout : time.Duration;
  UA : string
}.

(** [Request]: the embedded [*http.Request], [Err], [Cancel] (a nil func is
    [None]; a non-nil one is the cancel function of the context with that
    identifier) and [Client]. *)
Record Request := {
  req_Request : option HttpRequest;
  req_Err : option error;
  req_Cancel : option nat;
  req_Client : option Client
}.

(** [Response]: the embedded [*http.Response], [Request] and [Err]. *)
Record Response := {
  rsp_Response : option HttpResponse;
  rsp_Request : option Request;
  rsp_Err : option error
}.

Record Options := {
  opt_Proxy : string;
  opt_UA : string;
  opt_Timeout : time.Duration
}.

(** ** The world outside *)

(** A timeout context: its duration and how many times its cancel function
    has been invoked. *)
Record ctx_state := {
  ctx_timeout : time.Duration;
  cancel_calls : nat
}.

(** A response body stream: the bytes it still delivers, how it ends
    ([None]: end of file; [Some e]: a read error after those bytes), and
    whether [Close] was called. *)
Record body_state := {
  content : string;
  failure : option error;
  closed : bool
}.

(** What the transport answers to a request: a transport error, or a status
    code with a body stream. *)
Inductive reply :=
| Failed (e : error)
| Answered (status : Z) (data : string) (fail : option error).

(** The world: the contexts allocated so far and the body streams received
    so far (a context or a stream is named by its position), the requests
    handed to the transport (latest first), and the network, which answers
    a request knowing the [http.Client] that sends it and the earlier
    requests (cookies, redirects and proxying happen in there). *)
Record World := {
  contexts : list ctx_state;
  bodies : list body_state;
  sent : list HttpRequest;
  network : http_Client → list HttpRequest → HttpRequest → reply
}.

Definition set_contexts (f : list ctx_state → list ctx_state) (w : World) : World :=
  {| contexts := f (contexts w); bodies := bodies w; sent := sent w; network := network w |}.

Definition set_bodies (f : list body_state → list body_state) (w : World) : World :=
  {| contexts := contexts w; bodies := f (bodies w); sent := sent w; network := network w |}.

Definition log_sent (r : HttpRequest) (w : World) : World :=
  {| contexts := contexts w; bodies := bodies w; sent := r :: sent w; network := network w |}.

(** ** Computations: a state monad with panics *)

Definition M (A : Type) : Type := World → outcome A * World.

Definition ret {A} (a : A) : M A := fun w => (Returned a, w).

Definition bind {A B} (m : M A) (k : A → M B) : M B :=
  fun w => match m w with
           | (Returned a, w') => k a w'
           | (Panicked, w') => (Panicked, w')
           end.

Definition panic {A} : M A := fun w => (Panicked, w).

Notation "'let*' x := c1 'in' c2" := (bind c1 (fun x => c2))
  (at level 10, x name, c1 at level 100, c2 at level 200).
Notation "c1 ;; c2" := (bind c1 (fun _ => c2))
  (at level 100, c2 at level 200, right associativity).

(** Dereferencing a pointer that may be nil. *)
Definition deref {A} (p : option A) : M A :=
  match p with
  | Some a => ret a
  | None => panic
  end.

(** [defer d] followed by [body]: [d] runs when [body] is left, by return
    or by panic; a panic of either one leaves the function panicking. *)
Definition defer {A} (d : M unit) (body : M A) : M A :=
  fun w => match body w with
           | (Returned a, w') =>
               match d w' with
               | (Returned _, w'') => (Returned a, w'')
               | (Panicked, w'') => (Panicked, w'')
               end
           | (Panicked, w') => (Panicked, snd (d w'))
           end.

(** ** Library operations on the world *)

(** [context.WithTimeout(context.Background(), d)]: a new context; its
    cancel function is named by the context's identifier. *)
Definition context_WithTimeout (d : time.Duration) : M nat :=
  fun w => (Returned (length (contexts w)),
            set_contexts (fun cs => cs ++ [{| ctx_timeout := d; cancel_calls := 0%nat |}]) w).

Definition invoked (c : ctx_state) : ctx_state :=
  {| ctx_timeout := ctx_timeout c; cancel_calls := S (cancel_calls c) |}.

(** Invoking the cancel function of context [c]. *)
Definition cancel (c : nat) : M unit :=
  fun w => (Returned tt, set_contexts (alter invoked c) w).

(** Calling a func value: a nil func panics. *)
Definition call (f : option nat) : M unit :=
  match f with
  | Some c => cancel c
  | None => panic
  end.

(** How often the cancel function of context [c] has been invoked. *)
Definition cancellations (c : nat) (w : World) : nat :=
  match contexts w !! c with
  | Some st => cancel_calls st
  | None => 0%nat
  end.

(** A stream after all its bytes were read. *)
Definition drained (st : body_state) : body_state :=
  {| content := EmptyString; failure := failure st; closed := closed st |}.

(** A stream after [Close]. *)
Definition shut (st : body_state) : body_state :=
  {| content := content st; failure := failure st; closed := true |}.

Definition ErrBodyReadAfterClose : error :=
  errorString "http: read on closed response body".

(** Reading body stream [b] to its end: the bytes delivered and the error
    that ended them ([None] at end of file).  A handle without a stream is
    a nil reader. *)
Definition read_stream (b : nat) : M (string * option error) :=
  fun w => match bodies w !! b with
           | None => (Panicked, w)
           | Some st =>
               if closed st then (Returned (EmptyString, Some ErrBodyReadAfterClose), w)
               else (Returned (content st, failure st), set_bodies (<[b := drained st]>) w)
           end.

(** [io.ReadAll]. *)
Definition io_ReadAll (b : nat) : M (string * option error) := read_stream b.

(** Evaluating the method value [Body.Close] of a body: a nil body panics. *)
Definition method_Close (b : nat) : M nat :=
  fun w => match bodies w !! b with
           | None => (Panicked, w)
           | Some _ => (Returned b, w)
           end.

(** [Body.Close()]; its error is not looked at by the package. *)
Definition Close (b : nat) : M unit :=
  fun w => (Returned tt, set_bodies (alter shut b) w).

(** An [io.Writer], seen as [io.Copy] documents its use of one (bytes go in
    until an error occurs, however the stream is cut into calls of [Write]):
    a buffer that takes [room] more bytes ([None]: any number) and answers
    [write_error] to what does not fit. *)
Record Writer := {
  written : string;
  room : option nat;
  write_error : error
}.

(** [Writer.Write(p)]: the number of bytes written, the error, the writer
    afterwards. *)
Definition Write (p : string) (wr : Writer) : nat * option error * Writer :=
  match room wr with
  | None =>
      (String.length p, None,
       {| written := written wr +:+ p; room := None; write_error := write_error wr |})
  | Some r =>
      if decide (String.length p ≤ r)%nat then
        (String.length p, None,
         {| written := written wr +:+ p; room := Some (r - String.length p)%nat;
            write_error := write_error wr |})
      else
        (r, Some (write_error wr),
         {| written := written wr +:+ substring 0 r p; room := Some 0%nat;
            write_error := write_error wr |})
  end.

(** [io.Copy(w, body)]: copies until end of file or the first error, and
    returns the number of bytes copied with that error.  A failed write
    leaves the rest of the stream unread. *)
Definition io_Copy (wr : Writer) (b : nat) : M (Z * option error * Writer) :=
  let* r := read_stream b in
  let '(data, rerr) := r in
  let '(n, werr, wr') := Write data wr in
  match werr with
  | Some e =>
      fun w => (Returned (Z.of_nat n, Some e, wr'),
                set_bodies (alter (fun st => {| content := substring n (String.length data - n) data;
                                                failure := rerr; closed := closed st |}) b) w)
  | None => ret (Z.of_nat n, rerr, wr')
  end.

(** [json.NewDecoder(body).Decode(o)] for a target holding [o]. *)
Definition Decoder_Decode `{JSONCodec T} (b : nat) (o : T) : M (T * option error) :=
  let* r := read_stream b in
  ret (json_Decode (fst r) (snd r) o).

(** [httpguts.IsTokenRune]. *)
Definition isTokenRune (a : ascii) : bool :=
  let n := N_of_ascii a in
  ((48 <=? n) && (n <=? 57) || (65 <=? n) && (n <=? 90) || (97 <=? n) && (n <=? 122))%N
  || existsb (Ascii.eqb a) (list_ascii_of_string "!#$%&'*+-.^_`|~").

(** [validMethod] of [net/http]. *)
Definition validMethod (method : string) : bool :=
  negb (String.eqb method EmptyString)
  && forallb isTokenRune (list_ascii_of_string method).

(** The [%q] verb on a string of token characters. *)
Definition fmt_q (s : string) : string :=
  String (ascii_of_nat 34) s +:+ String (ascii_of_nat 34) EmptyString.

(** [http.NewRequestWithContext(ctx, method, url, body)] with a non-nil
    context: an empty method means GET, the method must be valid, the URL
    must parse; the new request has that method, an empty header and the
    given body. *)
Definition http_NewRequestWithContext (ctx : nat) (method url : string)
    (body : option string) : HttpRequest + error :=
  let method := if String.eqb method EmptyString then "GET"%string else method in
  if negb (validMethod method) then
    inr (errorString ("net/http: invalid method " +:+ fmt_q method))
  else
    match url_Parse url with
    | inr err => inr err
    | inl u => inl {| Method := method; ReqURL := u; ReqHeader := ∅;
                      ReqBody := body; Context := ctx |}
    end.

(** [http.Client.Do]: a nil request panics; otherwise the request goes to
    the transport, whose answer is an error or a response with a fresh,
    open body stream. *)
Definition http_Client_Do (cl : http_Client) (r : option HttpRequest) : M (HttpResponse + error) :=
  let* req := deref r in
  fun w => match network w cl (sent w) req with
           | Failed e => (Returned (inr e), log_sent req w)
           | Answered status data fail =>
               (Returned (inl {| StatusCode := status; Body := length (bodies w) |}),
                set_bodies (fun bs => bs ++ [{| content := data; failure := fail;
                                                closed := false |}]) (log_sent req w))
           end.

(** ** The package *)

(** [Invoke]. *)
Definition Invoke (req : Request) : M Response :=
  match req_Err req with
  | Some err =>
      ret {| rsp_Response := None; rsp_Request := Some req; rsp_Err := Some err |}
  | None =>
      let* c := deref (req_Client req) in
      let* r := http_Client_Do (client c) (req_Request req) in
      match r with
      | inr err => ret {| rsp_Response := None; rsp_Request := Some req; rsp_Err := Some err |}
      | inl rsp => ret {| rsp_Response := Some rsp; rsp_Request := Some req; rsp_Err := None |}
      end
  end.

(** [fmt.Errorf("Response %d, body=%s", code, string(data))]. *)
Definition status_error (code : Z) (data : string) : error :=
  errorString ("Response " +:+ fmt_d code +:+ ", body=" +:+ data).

(** [checkStatusCode]. *)
Definition checkStatusCode (rsp : Response) : M (option error) :=
  let* h := deref (rsp_Response rsp) in
  if decide (StatusCode h ≠ 200) then
    let* r := io_ReadAll (Body h) in
    ret (Some (status_error (StatusCode h) (fst r)))
  else ret None.

(** [Drop].  [defer rsp.Request.Cancel()] evaluates [rsp.Request.Cancel]
    where it stands and calls it when the function is left;
    [defer rsp.Body.Close()] likewise, and is called first. *)
Definition Drop (rsp : Response) : M (option error) :=
  match rsp_Err rsp with
  | Some err => ret (Some err)
  | None =>
      let* req := deref (rsp_Request rsp) in
      defer (call (req_Cancel req))
        (let* h := deref (rsp_Response rsp) in
         let* body := method_Close (Body h) in
         defer (Close body)
           (checkStatusCode rsp))
  end.

(** [JSON]: the target's content afterwards, and the error. *)
Definition JSON `{JSONCodec T} (rsp : Response) (o : T) : M (T * option error) :=
  match rsp_Err rsp with
  | Some err => ret (o, Some err)
  | None =>
      let* req := deref (rsp_Request rsp) in
      defer (call (req_Cancel req))
        (let* h := deref (rsp_Response rsp) in
         let* body := method_Close (Body h) in
         defer (Close body)
           (let* e := checkStatusCode rsp in
            match e with
            | Some err => ret (o, Some err)
            | None => Decoder_Decode (Body h) o
            end))
  end.

(** [WriteTo]: the count, the error, and the writer afterwards. *)
Definition WriteTo (rsp : Response) (w : Writer) : M (Z * option error * Writer) :=
  match rsp_Err rsp with
  | Some err => ret (0, Some err, w)
  | None =>
      let* req := deref (rsp_Request rsp) in
      defer (call (req_Cancel req))
        (let* h := deref (rsp_Response rsp) in
         let* body := method_Close (Body h) in
         defer (Close body)
           (let* e := checkStatusCode rsp in
            match e with
            | Some err => ret (0, Some err, w)
            | None => io_Copy w (Body h)
            end))
  end.

Definition DefaultUA : string :=
  "Mozilla/5.0 (Windows NT 10.0; Win64; x64) AppleWebKit/537.36 (KHTML, like Gecko) Chrome/106.0.0.0 Safari/537.36".

Definition set_Transport (t : Transport) (c : Client) : Client :=
  {| client := {| Jar := Jar (client c); client_Transport := Some t |};
     Timeout := Timeout c; UA := UA c |}.

Definition set_Timeout (d : time.Duration) (c : Client) : Client :=
  {| client := client c; Timeout := d; UA := UA c |}.

Definition set_UA (ua : string) (c : Client) : Client :=
  {| client := client c; Timeout := Timeout c; UA := ua |}.

(** [New]: the client and the error ([nil] is [None]). *)
Definition New (o : option Options) : option Client * option error :=
  let c := {| client := {| Jar := Some cookiejar_New; client_Transport := None |};
              Timeout := time.Second * 30;
              UA := DefaultUA |} in
  match o with
  | None => (Some c, None)
  | Some o =>
      let proxied :=
        if negb (String.eqb (opt_Proxy o) EmptyString) then
          match url_Parse (opt_Proxy o) with
          | inr err => inr err
          | inl u => inl (set_Transport {| Proxy := u |} c)
          end
        else inl c in
      match proxied with
      | inr err => (None, Some err)
      | inl c =>
          let c := if 0 <? opt_Timeout o then set_Timeout (opt_Timeout o) c else c in
          let c := if negb (String.eqb (opt_UA o) EmptyString) then set_UA (opt_UA o) c else c in
          (Some c, None)
      end
  end.

Definition req_Header_Set (key value : string) (r : HttpRequest) : HttpRequest :=
  {| Method := Method r; ReqURL := ReqURL r;
     ReqHeader := Header_Set key value (ReqHeader r);
     ReqBody := ReqBody r; Context := Context r |}.

(** [setDefault]. *)
Definition setDefault (c : Client) (r : HttpRequest) : HttpRequest :=
  req_Header_Set "User-Agent" (UA c) r.

(** [makeRequest]: the request is built with the literal "GET"; the
    [method] argument is not used. *)
Definition makeRequest (c : Client) (method url : string) (body : option string) : M Request :=
  let* ctx := context_WithTimeout (Timeout c) in
  match http_NewRequestWithContext ctx "GET" url body with
  | inr err =>
      cancel ctx ;;
      ret {| req_Request := None; req_Err := Some err; req_Cancel := None; req_Client := None |}
  | inl req =>
      let req := setDefault c req in
      ret {| req_Request := Some req; req_Err := None; req_Cancel := Some ctx;
             req_Client := Some c |}
  end.

(** [Get]. *)
Definition Get (c : Client) (url : string) : M Request :=
  makeRequest c "GET" url None.

(** [req.Header.Set(key, value)] on a [*Request]. *)
Definition Request_Header_Set (key value : string) (req : Request) : M Request :=
  let* r := deref (req_Request req) in
  ret {| req_Request := Some (req_Header_Set key value r); req_Err := req_Err req;
         req_Cancel := req_Cancel req; req_Client := req_Client req |}.

(** [PostJSON]. *)
Definition PostJSON `{JSONCodec T} (c : Client) (url : string) (body : T) : M Request :=
  match json_Marshal body with
  | inr err =>
      ret {| req_Request := None; req_Err := Some err; req_Cancel := None; req_Client := None |}
  | inl data =>
      let* req := makeRequest c "POST" url (Some data) in
      match req_Err req with
      | Some _ => ret req
      | None => Request_Header_Set "Content-Type" "application/json" req
      end
  end.

(** [PostForm]. *)
Definition PostForm (c : Client) (url : string) (values : gmap string (list string)) : M Request :=
  let* req := makeRequest c "POST" url (Some (Values_Encode values)) in
  match req_Err req with
  | Some _ => ret req
  | None => Request_Header_Set "Content-Type" "application/x-www-form-urlencoded" req
  end.

(** ** Uses of the package *)

(** The three constructors of a [Request]. *)
Inductive Builder :=
| ByGet (url : string)
| ByPostJSON {T} `{JSONCodec T} (url : string) (body : T)
| ByPostForm (url : string) (values : gmap string (list string)).

Definition build (c : Client) (b : Builder) : M Request :=
  match b with
  | ByGet url => Get c url
  | ByPostJSON url body => PostJSON c url body
  | ByPostForm url values => PostForm c url values
  end.

Definition builder_url (b : Builder) : string :=
  match b with
  | ByGet url => url
  | ByPostJSON url _ => url
  | ByPostForm url _ => url
  end.

(** The error of [json.Marshal] on the body, for the one constructor that
    serializes. *)
Definition marshal_error (b : Builder) : option error :=
  match b with
  | ByPostJSON _ body =>
      match json_Marshal body with
      | inr err => Some err
      | inl _ => None
      end
  | _ => None
  end.

(** The three consumers of a [Response], each observed by the error it
    returns. *)
Inductive Consumer :=
| ByDrop
| ByJSON {T} `{JSONCodec T} (o : T)
| ByWriteTo (w : Writer).

Definition consume (u : Consumer) (rsp : Response) : M (option error) :=
  match u with
  | ByDrop => Drop rsp
  | ByJSON o => let* r := JSON rsp o in ret (snd r)
  | ByWriteTo w => let* r := WriteTo rsp w in ret (snd (fst r))
  end.

(** [mk.Invoke().use()], as in [c.Get(url).Invoke().Drop()]. *)
Definition session {A} (mk : M Request) (use : Response → M A) : M A :=
  let* req := mk in
  let* rsp := Invoke req in
  use rsp.



(** ** Values and worlds the runs go through *)

(** The context [makeRequest] allocates. *)
Definition fresh_ctx (c : Client) : ctx_state :=
  {| ctx_timeout := Timeout c; cancel_calls := 0%nat |}.

(** [&Request{Err: err}]. *)
Definition failed_request (err : error) : Request :=
  {| req_Request := None; req_Err := Some err; req_Cancel := None; req_Client := None |}.

(** The HTTP request [makeRequest] builds for a parsed URL. *)
Definition plain_request (c : Client) (u : URL) (body : option string) (ctx : nat) : HttpRequest :=
  {| Method := "GET"; ReqURL := u; ReqHeader := Header_Set "User-Agent" (UA c) ∅;
     ReqBody := body; Context := ctx |}.

(** The body a constructor hands to [makeRequest]. *)
Definition builder_body (b : Builder) : option string :=
  match b with
  | ByGet _ => None
  | ByPostJSON _ body =>
      match json_Marshal body with
      | inl data => Some data
      | inr _ => None
      end
  | ByPostForm _ values => Some (Values_Encode values)
  end.

(** The Content-Type a constructor sets. *)
Definition builder_content_type (b : Builder) : option string :=
  match b with
  | ByGet _ => None
  | ByPostJSON _ _ => Some "application/json"%string
  | ByPostForm _ _ => Some "application/x-www-form-urlencoded"%string
  end.

Definition built_request (c : Client) (b : Builder) (u : URL) (ctx : nat) : HttpRequest :=
  let r := plain_request c u (builder_body b) ctx in
  match builder_content_type b with
  | Some ct => req_Header_Set "Content-Type" ct r
  | None => r
  end.

(** What [Drop], [JSON] and [WriteTo] share: the two [defer] statements
    around the rest of the function. *)
Definition with_cleanup {A} (rsp : Response) (rest : HttpResponse → M A) : M A :=
  let* req := deref (rsp_Request rsp) in
  defer (call (req_Cancel req))
    (let* h := deref (rsp_Response rsp) in
     let* body := method_Close (Body h) in
     defer (Close body) (rest h)).

(** The world after the deferred calls of a consumer: the body closed, the
    cancel function invoked. *)
Definition cleaned (c b : nat) (w : World) : World :=
  set_contexts (alter invoked c) (set_bodies (alter shut b) w).

(** What a consumer may change before its deferred calls run: the stream of
    the response's body, and nothing else. *)
Definition only_body (b : nat) (w w1 : World) : Prop :=
  sent w1 = sent w ∧ network w1 = network w ∧ contexts w1 = contexts w
  ∧ length (bodies w1) = length (bodies w)
  ∧ ∀ b', b' ≠ b → bodies w1 !! b' = bodies w !! b'.

(** What [Invoke] returns for [&Request{Err: err}]. *)
Definition error_response (err : error) : Response :=
  {| rsp_Response := None; rsp_Request := Some (failed_request err); rsp_Err := Some err |}.

(** The writer takes [data] whole. *)
Definition fits (data : string) (wr : Writer) : Prop :=
  match room wr with
  | None => True
  | Some r => (String.length data ≤ r)%nat
  end.

End Package.

(** ** Stand-ins for the libraries, to run the package on examples *)

Module Sample.

Definition is_control (a : ascii) : bool :=
  let n := N_of_ascii a in ((n <? 32) || (n =? 127))%N.

(** [url.Parse] refuses a string with an ASCII control character; the
    stand-in accepts every other string and keeps it as it is.
    [Encode] joins [key=value] pairs without escaping. *)
#[export] Instance url : NetURL := {|
  URL := string;
  url_Parse s :=
    if existsb is_control (list_ascii_of_string s)
    then inr (errorString "net/url: invalid control character in URL")
    else inl s;
  Values_Encode vs :=
    String.concat "&"
      (flat_map (fun kv => map (fun v => fst kv +:+ "=" +:+ v) (snd kv)) (map_to_list vs))
|}.

(** A float64 that holds an integer, or NaN. *)
Inductive number := Finite (z : Z) | NaN.

(** [json.Marshal] refuses NaN; a decimal integer decodes to itself. *)
#[export] Instance number_codec : JSONCodec number := {|
  json_Marshal v :=
    match v with
    | Finite z => inl (fmt_d z)
    | NaN => inr (errorString "json: unsupported value: NaN")
    end;
  json_Decode data rerr old :=
    match NilZero.int_of_string data with
    | Some i => (Finite (Z.of_int i), None)
    | None =>
        (old, Some (match rerr with
                    | Some e => e
                    | None => errorString "invalid character looking for beginning of value"
                    end))
    end
|}.

Definition the_client : Client :=
  {| client := {| Jar := Some cookiejar_New; client_Transport := None |};
     Timeout := time.Second * 30; UA := "subtitles-robot" |}.

Definition world_of (net : http_Client → list HttpRequest → HttpRequest → reply) : World :=
  {| contexts := []; bodies := []; sent := []; network := net |}.

(** Nobody listens: the transport fails. *)
Definition refused : World :=
  world_of (fun _ _ _ => Failed (errorString "dial tcp: connection refused")).

(** Every request is answered with this status code and this body. *)
Definition serving (status : Z) (data : string) : World :=
  world_of (fun _ _ _ => Answered status data None).

Definition not_found : World := serving 404 "not found".

(** Every request is answered 200 with its own body. *)
Definition echo : World :=
  world_of (fun _ _ r => Answered 200 (default EmptyString (ReqBody r)) None).

Definition builder_of : Writer :=
  {| written := EmptyString; room := None; write_error := errorString "unused" |}.

Definition full_disk : Writer :=
  {| written := EmptyString; room := Some 0%nat; write_error := errorString "no space left on device" |}.

Definition good_url : string := "http://127.0.0.1:8080/".
Definition bad_url : string := String (ascii_of_nat 127) "http://127.0.0.1/".

(** The request of [Get(good_url)] in a world without contexts, a response
    to it with the given status code, and the world in which that
    response has just been received with the given body. *)
Definition sent_request : Request :=
  {| req_Request := Some (plain_request the_client good_url None 0);
     req_Err := None; req_Cancel := Some 0%nat; req_Client := Some the_client |}.

Definition answer (status : Z) : Response :=
  {| rsp_Response := Some {| StatusCode := status; Body := 0 |};
     rsp_Request := Some sent_request; rsp_Err := None |}.

Definition received (data : string) (fail : option error) : World :=
  {| contexts := [fresh_ctx the_client];
     bodies := [{| content := data; failure := fail; closed := false |}];
     sent := [plain_request the_client good_url None 0];
     network := fun _ _ _ => Failed (errorString "unused") |}.

(** The text of the integer 1 as [json.Encoder] writes it: with a newline. *)
Definition one_line : string := String "1" (String (ascii_of_nat 10) EmptyString).

Definition options : Options :=
  {| opt_Proxy := EmptyString; opt_UA := "subtitles-robot"; opt_Timeout := 5 * time.Second |}.

Definition bad_proxy : Options :=
  {| opt_Proxy := bad_url; opt_UA := EmptyString; opt_Timeout := 0 |}.

Definition broken : error := errorString "json: unsupported value: NaN".

(** Options that name a proxy, and the client [New] makes of them. *)
Definition proxied : Options :=
  {| opt_Proxy := "http://127.0.0.1:3128"; opt_UA := EmptyString; opt_Timeout := 0 |}.

Definition proxied_client : Client :=
  {| client := {| Jar := Some cookiejar_New;
                  client_Transport := Some {| Proxy := "http://127.0.0.1:3128"%string |} |};
     Timeout := time.Second * 30; UA := DefaultUA |}.

Definition query : gmap string (list string) := {[ "q"%string := ["subtitles"%string] ]}.

End Sample.

(** * Properties *)

Section Properties.
Context `{NetURL}.

(** ** Running the constructors *)

Lemma makeRequest_run c method url body w :
  makeRequest c method url body w =
  let n := length (contexts w) in
  match url_Parse url with
  | inr err =>
      (Returned (failed_request err),
       set_contexts (alter invoked n) (set_contexts (fun cs => cs ++ [fresh_ctx c]) w))
  | inl u =>
      (Returned {| req_Request := Some (plain_request c u body n); req_Err := None;
                   req_Cancel := Some n; req_Client := Some c |},
       set_contexts (fun cs => cs ++ [fresh_ctx c]) w)
  end.
Proof.
  unfold makeRequest, bind, context_WithTimeout, http_NewRequestWithContext.
  cbn [String.eqb Ascii.eqb Bool.eqb validMethod negb].
  change (validMethod "GET") with true. cbn [negb].
  destruct (url_Parse url) as [u | err]; reflexivity.
Qed.

Lemma PostJSON_run `{JSONCodec T} c url (body : T) w :
  PostJSON c url body w =
  match json_Marshal body with
  | inr err => (Returned (failed_request err), w)
  | inl data =>
      let n := length (contexts w) in
      match url_Parse url with
      | inr err =>
          (Returned (failed_request err),
           set_contexts (alter invoked n) (set_contexts (fun cs => cs ++ [fresh_ctx c]) w))
      | inl u =>
          (Returned {| req_Request :=
                         Some (req_Header_Set "Content-Type" "application/json"
                                 (plain_request c u (Some data) n));
                       req_Err := None; req_Cancel := Some n; req_Client := Some c |},
           set_contexts (fun cs => cs ++ [fresh_ctx c]) w)
      end
  end.
Proof.
  unfold PostJSON. destruct (json_Marshal body) as [data | err]; [| reflexivity].
  unfold bind. rewrite makeRequest_run. cbv zeta.
  destruct (url_Parse url) as [u | err]; reflexivity.
Qed.

Lemma PostForm_run c url values w :
  PostForm c url values w =
  let n := length (contexts w) in
  match url_Parse url with
  | inr err =>
      (Returned (failed_request err),
       set_contexts (alter invoked n) (set_contexts (fun cs => cs ++ [fresh_ctx c]) w))
  | inl u =>
      (Returned {| req_Request :=
                     Some (req_Header_Set "Content-Type" "application/x-www-form-urlencoded"
                             (plain_request c u (Some (Values_Encode values)) n));
                   req_Err := None; req_Cancel := Some n; req_Client := Some c |},
       set_contexts (fun cs => cs ++ [fresh_ctx c]) w)
  end.
Proof.
  unfold PostForm, bind. rewrite makeRequest_run. cbv zeta.
  destruct (url_Parse url) as [u | err]; reflexivity.
Qed.

(** Whatever the libraries do, a request that [PostJSON] or [PostForm]
    builds carries the method GET. *)
Lemma post_method_is_GET `{JSONCodec T} c url (body : T) values w :
  match fst (PostJSON c url body w), fst (PostForm c url values w) with
  | Returned rj, Returned rf =>
      ∀ r, req_Request rj = Some r ∨ req_Request rf = Some r → Method r = "GET"%string
  | _, _ => False
  end.
Proof.
  rewrite PostJSON_run, PostForm_run. cbv zeta.
  destruct (json_Marshal body) as [data | e1], (url_Parse url) as [u | e2]; cbn;
    intros r [Hr | Hr]; by simplify_eq.
Qed.

(** ** Client configuration *)

(** C4: [New(nil)] gives a client with a timeout of 30 seconds, the default
    User-Agent and no proxy transport.  With options whose proxy is empty or
    parses, [New] gives a client whose timeout is the options' when that is
    greater than 0 and 30 seconds otherwise, and whose User-Agent is the
    options' when that is not empty and the default otherwise. *)
Theorem C4_New_defaults_and_overrides (o : Options) :
  opt_Proxy o = EmptyString ∨ (∃ u, url_Parse (opt_Proxy o) = inl u) →
  New None =
    (Some {| client := {| Jar := Some cookiejar_New; client_Transport := None |};
             Timeout := 30 * time.Second;
             UA := "Mozilla/5.0 (Windows NT 10.0; Win64; x64) AppleWebKit/537.36 (KHTML, like Gecko) Chrome/106.0.0.0 Safari/537.36" |},
     None)
  ∧ ∃ c, New (Some o) = (Some c, None)
      ∧ (0 < opt_Timeout o → Timeout c = opt_Timeout o)
      ∧ (opt_Timeout o ≤ 0 → Timeout c = 30 * time.Second)
      ∧ (opt_UA o ≠ EmptyString → UA c = opt_UA o)
      ∧ (opt_UA o = EmptyString → UA c = DefaultUA).
Proof.
  intros Hproxy. split; [reflexivity |].
  unfold New.
  assert (Hp : ∃ c0,
    (if negb (String.eqb (opt_Proxy o) EmptyString)
     then match url_Parse (opt_Proxy o) with
          | inl u => inl (set_Transport {| Proxy := u |}
                            {| client := {| Jar := Some cookiejar_New; client_Transport := None |};
                               Timeout := time.Second * 30; UA := DefaultUA |})
          | inr err => inr err
          end
     else inl {| client := {| Jar := Some cookiejar_New; client_Transport := None |};
                 Timeout := time.Second * 30; UA := DefaultUA |}) = inl c0
    ∧ Timeout c0 = 30 * time.Second ∧ UA c0 = DefaultUA).
  { destruct (String.eqb_spec (opt_Proxy o) EmptyString) as [Heq | Hne]; cbn [negb].
    - eexists; repeat split.
    - destruct Hproxy as [? | [u Hu]]; [done |]. rewrite Hu. eexists; repeat split. }
  destruct Hp as (c0 & -> & Ht & Hu).
  eexists; split; [reflexivity |].
  destruct (Z.ltb_spec 0 (opt_Timeout o)) as [Hlt | Hge];
    destruct (String.eqb_spec (opt_UA o) EmptyString) as [Heq | Hne]; cbn [negb];
    repeat split; intros; cbn; try done; try lia.
Qed.

(** C8: with a proxy string that is not empty and that [url.Parse] refuses,
    [New] returns that parse error and no client.  [New] is a function of
    its options alone: it has no access to the transport. *)
Theorem C8_New_malformed_proxy (o : Options) (err : error) :
  opt_Proxy o ≠ EmptyString →
  url_Parse (opt_Proxy o) = inr err →
  New (Some o) = (None, Some err).
Proof.
  intros Hne Herr. unfold New.
  destruct (String.eqb_spec (opt_Proxy o) EmptyString) as [Heq | _]; [done |].
  cbn [negb]. by rewrite Herr.
Qed.

(** ** Invocation *)

(** C5: a request whose error is set is not sent: [Invoke] returns a
    response with the same error and no HTTP response, and the world (the
    requests sent, the bodies, the contexts) is as before.  On a response
    whose error is set, [Drop], [JSON] and [WriteTo] return that error and
    leave the world, the target and the writer as they were. *)
Theorem C5_errors_short_circuit `{JSONCodec T} (req : Request) (rsp : Response)
    (e e' : error) (o : T) (wr : Writer) (w : World) :
  req_Err req = Some e →
  rsp_Err rsp = Some e' →
  Invoke req w =
    (Returned {| rsp_Response := None; rsp_Request := Some req; rsp_Err := Some e |}, w)
  ∧ Drop rsp w = (Returned (Some e'), w)
  ∧ JSON rsp o w = (Returned (o, Some e'), w)
  ∧ WriteTo rsp wr w = (Returned (0, Some e', wr), w).
Proof.
  intros Hreq Hrsp. unfold Invoke, Drop, JSON, WriteTo.
  rewrite Hreq, Hrsp. done.
Qed.

(** C10: [Invoke] returns unless the request has neither an error nor a
    client and an HTTP request to send; the response it returns refers to
    the request, and has either an HTTP response and no error, or an error
    and no HTTP response. *)
Theorem C10_Invoke_response_invariant (req : Request) (w : World) :
  match fst (Invoke req w) with
  | Returned rsp =>
      rsp_Request rsp = Some req
      ∧ (is_Some (rsp_Response rsp) ∧ rsp_Err rsp = None
         ∨ rsp_Response rsp = None ∧ is_Some (rsp_Err rsp))
  | Panicked =>
      req_Err req = None ∧ (req_Client req = None ∨ req_Request req = None)
  end.
Proof.
  unfold Invoke, bind, deref, http_Client_Do, ret, panic.
  destruct (req_Err req) as [e |] eqn:He; cbn.
  { split; [done |]. right. split; [done | by eexists]. }
  destruct (req_Client req) as [c |]; cbn; [| by auto].
  destruct (req_Request req) as [r |]; cbn; [| by auto].
  destruct (network w (client c) (sent w) r) as [err | status data fail]; cbn.
  - split; [done |]. right. split; [done | by eexists].
  - split; [done |]. left. split; [by eexists | done].
Qed.

(** ** Strings *)

Lemma append_assoc (a b c : string) : (a +:+ b) +:+ c = a +:+ b +:+ c.
Proof.
  induction a as [| x a IH]; [done |].
  change (String x ((a +:+ b) +:+ c) = String x (a +:+ b +:+ c)). by rewrite IH.
Qed.

Lemma append_nil_r (a : string) : a +:+ EmptyString = a.
Proof.
  induction a as [| x a IH]; [done |].
  change (String x (a +:+ EmptyString) = String x a). by rewrite IH.
Qed.

Lemma Contains_status_error code data :
  Contains (Error (status_error code data)) (fmt_d code)
  ∧ Contains (Error (status_error code data)) data.
Proof.
  split.
  - by exists "Response "%string, (", body=" +:+ data).
  - exists ("Response " +:+ fmt_d code +:+ ", body="), EmptyString.
    by rewrite append_nil_r, !append_assoc.
Qed.

(** ** Running the consumers *)

Lemma Drop_eq rsp :
  Drop rsp =
  match rsp_Err rsp with
  | Some err => ret (Some err)
  | None => with_cleanup rsp (fun _ => checkStatusCode rsp)
  end.
Proof. reflexivity. Qed.

Lemma JSON_eq `{JSONCodec T} rsp (o : T) :
  JSON rsp o =
  match rsp_Err rsp with
  | Some err => ret (o, Some err)
  | None =>
      with_cleanup rsp (fun h =>
        bind (checkStatusCode rsp) (fun e =>
          match e with
          | Some err => ret (o, Some err)
          | None => Decoder_Decode (Body h) o
          end))
  end.
Proof. reflexivity. Qed.

Lemma WriteTo_eq rsp wr :
  WriteTo rsp wr =
  match rsp_Err rsp with
  | Some err => ret (0, Some err, wr)
  | None =>
      with_cleanup rsp (fun h =>
        bind (checkStatusCode rsp) (fun e =>
          match e with
          | Some err => ret (0, Some err, wr)
          | None => io_Copy wr (Body h)
          end))
  end.
Proof. reflexivity. Qed.

Lemma with_cleanup_run {A} rsp req h c st (rest : HttpResponse → M A) w :
  rsp_Request rsp = Some req →
  rsp_Response rsp = Some h →
  req_Cancel req = Some c →
  bodies w !! Body h = Some st →
  with_cleanup rsp rest w = (fst (rest h w), cleaned c (Body h) (snd (rest h w))).
Proof.
  intros Hreq Hh Hc Hb.
  unfold with_cleanup, bind, deref, defer, method_Close, call, cancel, Close, ret.
  rewrite Hreq, Hh. cbn. rewrite Hc, Hb.
  by destruct (rest h w) as [[a |] w1].
Qed.

Lemma checkStatusCode_run rsp h st w :
  rsp_Response rsp = Some h →
  bodies w !! Body h = Some st →
  closed st = false →
  checkStatusCode rsp w =
  if decide (StatusCode h ≠ 200)
  then (Returned (Some (status_error (StatusCode h) (content st))),
        set_bodies (<[Body h := drained st]>) w)
  else (Returned None, w).
Proof.
  intros Hh Hb Hopen.
  unfold checkStatusCode, bind, deref, io_ReadAll, read_stream, ret.
  rewrite Hh. cbn. case_decide; [| done].
  by rewrite Hb, Hopen.
Qed.

Lemma build_run c b w :
  build c b w =
  let n := length (contexts w) in
  match marshal_error b with
  | Some err => (Returned (failed_request err), w)
  | None =>
      match url_Parse (builder_url b) with
      | inr err =>
          (Returned (failed_request err),
           set_contexts (alter invoked n) (set_contexts (fun cs => cs ++ [fresh_ctx c]) w))
      | inl u =>
          (Returned {| req_Request := Some (built_request c b u n); req_Err := None;
                       req_Cancel := Some n; req_Client := Some c |},
           set_contexts (fun cs => cs ++ [fresh_ctx c]) w)
      end
  end.
Proof.
  destruct b as [url | T codec url body | url values]; cbn [build marshal_error builder_url].
  - unfold Get. by rewrite makeRequest_run.
  - rewrite PostJSON_run. unfold built_request. cbn.
    by destruct (json_Marshal body).
  - by rewrite PostForm_run.
Qed.

Lemma Header_Get_Set key value h : Header_Get key (Header_Set key value h) = value.
Proof. unfold Header_Get, Header_Set. by rewrite lookup_insert_eq. Qed.

Lemma Header_Get_Set_ne key key' value h :
  key' ≠ key → Header_Get key (Header_Set key' value h) = Header_Get key h.
Proof. intros Hne. unfold Header_Get, Header_Set. by rewrite lookup_insert_ne. Qed.

(** ** Request builder *)

(** C9: a request that [Get], [PostJSON] or [PostForm] returns with no
    error holds an HTTP request whose User-Agent header is the client's UA;
    [PostJSON] also sets Content-Type to application/json, [PostForm] to
    application/x-www-form-urlencoded. *)
Theorem C9_default_headers (c : Client) (b : Builder) (w w1 : World) (req : Request) :
  build c b w = (Returned req, w1) →
  req_Err req = None →
  ∃ r, req_Request req = Some r
    ∧ req_Client req = Some c
    ∧ Header_Get "User-Agent" (ReqHeader r) = UA c
    ∧ match b with
      | ByGet _ => True
      | ByPostJSON _ _ => Header_Get "Content-Type" (ReqHeader r) = "application/json"%string
      | ByPostForm _ _ =>
          Header_Get "Content-Type" (ReqHeader r) = "application/x-www-form-urlencoded"%string
      end.
Proof.
  rewrite build_run. cbv zeta. intros Hrun Herr.
  destruct (marshal_error b) as [e |]; [by simplify_eq |].
  destruct (url_Parse (builder_url b)) as [u | e]; [| by simplify_eq].
  injection Hrun as <- _. eexists; split; [reflexivity |]. split; [reflexivity |].
  destruct b; unfold built_request;
    cbn [builder_content_type req_Header_Set plain_request ReqHeader].
  - split; [| done]. apply Header_Get_Set.
  - split; [| apply Header_Get_Set].
    rewrite Header_Get_Set_ne by done. apply Header_Get_Set.
  - split; [| apply Header_Get_Set].
    rewrite Header_Get_Set_ne by done. apply Header_Get_Set.
Qed.

(** ** Response helpers *)

(** C2: on a response with no error whose status code is not 200 and whose
    body is open, [Drop], [JSON] and [WriteTo] return an error whose message
    contains the status code and the text of the body (the target and the
    writer are left alone); when the status code is 200, [Drop] returns
    nil. *)
Theorem C2_status_policy `{JSONCodec T} (rsp : Response) (req : Request)
    (h : HttpResponse) (c : nat) (st : body_state) (o : T) (wr : Writer) (w : World) :
  rsp_Err rsp = None →
  rsp_Response rsp = Some h →
  rsp_Request rsp = Some req →
  req_Cancel req = Some c →
  bodies w !! Body h = Some st →
  closed st = false →
  if decide (StatusCode h = 200) then
    ∃ w', Drop rsp w = (Returned None, w')
  else
    ∃ e w',
      Contains (Error e) (fmt_d (StatusCode h))
      ∧ Contains (Error e) (content st)
      ∧ Drop rsp w = (Returned (Some e), w')
      ∧ JSON rsp o w = (Returned (o, Some e), w')
      ∧ WriteTo rsp wr w = (Returned (0, Some e, wr), w').
Proof.
  intros Herr Hh Hreq Hc Hb Hopen.
  rewrite Drop_eq, JSON_eq, WriteTo_eq, Herr.
  rewrite !(with_cleanup_run rsp req h c st) by done.
  unfold bind. rewrite (checkStatusCode_run rsp h st) by done.
  case_decide as H200.
  - rewrite decide_False by (intros Hne; by apply Hne). by eexists.
  - rewrite decide_True by done. cbn.
    destruct (Contains_status_error (StatusCode h) (content st)) as [Hcode Hbody].
    by eexists _, _.
Qed.

Lemma Write_fits data wr :
  fits data wr →
  ∃ wr', Write data wr = (String.length data, None, wr')
       ∧ written wr' = written wr +:+ data.
Proof.
  unfold fits, Write. destruct (room wr) as [r |]; intros Hfit.
  - rewrite decide_True by done. by eexists.
  - by eexists.
Qed.

Lemma Write_overflow data wr :
  ¬ fits data wr →
  ∃ n wr', Write data wr = (n, Some (write_error wr), wr').
Proof.
  unfold fits, Write. destruct (room wr) as [r |]; intros Hfit; [| done].
  rewrite decide_False by done. by eexists _, _.
Qed.

(** C6: on a response with no error, status code 200 and an open body,
    [WriteTo] appends the bytes of the body to a writer that takes them, and
    returns their number with the error that ended the body (nil at end of
    file); when the writer fails, [WriteTo] returns the writer's error. *)
Theorem C6_WriteTo_copies_body (rsp : Response) (req : Request) (h : HttpResponse)
    (c : nat) (st : body_state) (wr : Writer) (w : World) :
  rsp_Err rsp = None →
  rsp_Response rsp = Some h →
  StatusCode h = 200 →
  rsp_Request rsp = Some req →
  req_Cancel req = Some c →
  bodies w !! Body h = Some st →
  closed st = false →
  (fits (content st) wr →
     ∃ wr' w',
       WriteTo rsp wr w =
         (Returned (Z.of_nat (String.length (content st)), failure st, wr'), w')
       ∧ written wr' = written wr +:+ content st)
  ∧ (¬ fits (content st) wr →
       ∃ n wr' w', WriteTo rsp wr w = (Returned (n, Some (write_error wr), wr'), w')).
Proof.
  intros Herr Hh H200 Hreq Hc Hb Hopen.
  rewrite WriteTo_eq, Herr.
  rewrite (with_cleanup_run rsp req h c st) by done.
  unfold bind at 1 3. rewrite (checkStatusCode_run rsp h st) by done.
  rewrite decide_False by (intros Hne; by apply Hne).
  unfold io_Copy, bind, read_stream, ret. rewrite Hb, Hopen.
  split; intros Hfit.
  - destruct (Write_fits _ _ Hfit) as (wr' & -> & Hwr'). cbn. by eexists _, _.
  - destruct (Write_overflow _ _ Hfit) as (n & wr' & ->). cbn. by eexists _, _, _.
Qed.

(** ** Sessions *)

(** A consumer of a response with no error and an open body returns, and
    invokes the request's cancel function once. *)
Local Ltac ran := eexists _, _; split; reflexivity.

Lemma consume_run u rsp req h c st w :
  rsp_Err rsp = None →
  rsp_Response rsp = Some h →
  rsp_Request rsp = Some req →
  req_Cancel req = Some c →
  bodies w !! Body h = Some st →
  closed st = false →
  ∃ out w', consume u rsp w = (Returned out, w')
          ∧ contexts w' = alter invoked c (contexts w).
Proof.
  intros Herr Hh Hreq Hc Hb Hopen.
  destruct u as [| T codec o | wr]; unfold consume;
    rewrite ?Drop_eq, ?JSON_eq, ?WriteTo_eq, Herr.
  - rewrite (with_cleanup_run rsp req h c st) by done.
    rewrite (checkStatusCode_run rsp h st) by done.
    case_decide; ran.
  - unfold bind. rewrite (with_cleanup_run rsp req h c st) by done.
    rewrite (checkStatusCode_run rsp h st) by done.
    case_decide; [ran |].
    unfold Decoder_Decode, bind, read_stream, ret. rewrite Hb, Hopen. ran.
  - unfold bind. rewrite (with_cleanup_run rsp req h c st) by done.
    rewrite (checkStatusCode_run rsp h st) by done.
    case_decide; [ran |].
    unfold io_Copy, bind, read_stream, ret. rewrite Hb, Hopen.
    destruct (Write (content st) wr) as [[n [e |]] wr']; ran.
Qed.

(** A consumer of a response with an error returns it and changes nothing. *)
Lemma consume_error u rsp e w :
  rsp_Err rsp = Some e → consume u rsp w = (Returned (Some e), w).
Proof.
  intros Herr. destruct u; unfold consume, Drop, JSON, WriteTo, bind; by rewrite Herr.
Qed.

Lemma cancellations_fresh c (cs : list ctx_state) w :
  contexts w = alter invoked (length cs) (cs ++ [fresh_ctx c]) →
  length (contexts w) = S (length cs) ∧ cancellations (length cs) w = 1%nat.
Proof.
  intros Hw. unfold cancellations. rewrite Hw. split.
  - rewrite length_alter, length_app. cbn. lia.
  - rewrite list_lookup_alter, lookup_app_r by lia.
    case_decide; [| done].
    by replace (length cs - length cs)%nat with 0%nat by lia.
Qed.

Lemma Invoke_built r ctx c w :
  let req := {| req_Request := Some r; req_Err := None; req_Cancel := Some ctx;
                req_Client := Some c |} in
  Invoke req w =
  match network w (client c) (sent w) r with
  | Failed e =>
      (Returned {| rsp_Response := None; rsp_Request := Some req; rsp_Err := Some e |},
       log_sent r w)
  | Answered status data fail =>
      (Returned {| rsp_Response := Some {| StatusCode := status; Body := length (bodies w) |};
                   rsp_Request := Some req; rsp_Err := None |},
       set_bodies (fun bs => bs ++ [{| content := data; failure := fail; closed := false |}])
         (log_sent r w))
  end.
Proof.
  unfold Invoke, bind, deref, http_Client_Do, ret. cbn.
  by destruct (network w (client c) (sent w) r).
Qed.

Lemma Invoke_failed err w :
  Invoke (failed_request err) w =
  (Returned {| rsp_Response := None; rsp_Request := Some (failed_request err);
               rsp_Err := Some err |}, w).
Proof. reflexivity. Qed.

(** C3 (amended): in [build.Invoke().consume()], the constructor, [Invoke]
    and the consumer all return.  When [PostJSON] cannot serialize the body,
    no context is allocated and the request has no cancel function.
    Otherwise exactly one context is allocated, a request built without
    error carries its cancel function, and that function has been invoked
    exactly once at the end when the request could not be built, or when
    the transport answered (with any status code). *)
Theorem C3_cancel_invoked_once (c : Client) (b : Builder) (u : Consumer) (w : World) :
  let n := length (contexts w) in
  ∃ req w1 rsp w2 out w3,
    build c b w = (Returned req, w1)
    ∧ Invoke req w1 = (Returned rsp, w2)
    ∧ consume u rsp w2 = (Returned out, w3)
    ∧ match marshal_error b with
      | Some err => req_Cancel req = None ∧ contexts w3 = contexts w ∧ out = Some err
      | None =>
          length (contexts w3) = S n
          ∧ (req_Err req = None → req_Cancel req = Some n)
          ∧ (is_Some (req_Err req) ∨ rsp_Err rsp = None → cancellations n w3 = 1%nat)
      end.
Proof.
  intros n. rewrite build_run. fold n. cbv zeta.
  destruct (marshal_error b) as [err |].
  { eexists _, _, _, _, _, _. split; [reflexivity |].
    split; [apply Invoke_failed |]. split; [by apply consume_error |]. done. }
  destruct (url_Parse (builder_url b)) as [url | err].
  - set (w1 := set_contexts (fun cs => cs ++ [fresh_ctx c]) w).
    pose proof (Invoke_built (built_request c b url n) n c w1) as Hinv. cbv zeta in Hinv.
    destruct (network w1 (client c) (sent w1) (built_request c b url n))
      as [e | status data fail].
    + eexists _, _, _, _, _, _. split; [reflexivity |]. split; [exact Hinv |].
      split; [by apply consume_error |]. cbn.
      split; [rewrite length_app; cbn; lia |]. split; [done |].
      intros [[? ?] | ?]; done.
    + set (req := {| req_Request := Some (built_request c b url n); req_Err := None;
                     req_Cancel := Some n; req_Client := Some c |}) in *.
      set (h := {| StatusCode := status; Body := length (bodies w1) |}) in *.
      set (st := {| content := data; failure := fail; closed := false |}) in *.
      set (rsp := {| rsp_Response := Some h; rsp_Request := Some req; rsp_Err := None |}) in *.
      set (w2 := set_bodies (fun bs => bs ++ [st]) (log_sent (built_request c b url n) w1)) in *.
      destruct (consume_run u rsp req h n st w2) as (out & w3 & Hrun & Hctx);
        [done | done | done | done | by apply list_lookup_middle | done |].
      eexists _, _, _, _, _, _. split; [reflexivity |]. split; [exact Hinv |].
      split; [exact Hrun |].
      destruct (cancellations_fresh c (contexts w) w3) as [Hlen Hone]; [exact Hctx |].
      by repeat split.
  - eexists _, _, _, _, _, _. split; [reflexivity |].
    split; [apply Invoke_failed |]. split; [by apply consume_error |].
    destruct (cancellations_fresh c (contexts w)
                (set_contexts (alter invoked n)
                   (set_contexts (fun cs => cs ++ [fresh_ctx c]) w))) as [Hlen Hone];
      [done |].
    by repeat split.
Qed.


End Properties.

(** * The package on examples *)

Import Sample.

Lemma C2_status_policy_witness :
  (∃ e w',
     Contains (Error e) "404" ∧ Contains (Error e) "not found"
     ∧ Drop (answer 404) (received "not found" None) = (Returned (Some e), w')
     ∧ JSON (answer 404) NaN (received "not found" None) = (Returned (NaN, Some e), w')
     ∧ WriteTo (answer 404) builder_of (received "not found" None)
       = (Returned (0, Some e, builder_of), w'))
  ∧ (∃ w', Drop (answer 200) (received one_line None) = (Returned None, w')).
Proof.
  split.
  - exact (C2_status_policy (answer 404) sent_request {| StatusCode := 404; Body := 0 |}
             0%nat {| content := "not found"; failure := None; closed := false |}
             NaN builder_of (received "not found" None)
             eq_refl eq_refl eq_refl eq_refl eq_refl eq_refl).
  - exact (C2_status_policy (answer 200) sent_request {| StatusCode := 200; Body := 0 |}
             0%nat {| content := one_line; failure := None; closed := false |}
             NaN builder_of (received one_line None)
             eq_refl eq_refl eq_refl eq_refl eq_refl eq_refl).
Defined.

Lemma C4_New_defaults_and_overrides_witness :
  ∃ c, New (Some options) = (Some c, None)
     ∧ Timeout c = 5 * time.Second ∧ UA c = "subtitles-robot"%string.
Proof.
  destruct (C4_New_defaults_and_overrides options (or_introl eq_refl))
    as (_ & c & Hnew & Htimeout & _ & Hua & _).
  exists c. split; [exact Hnew |]. split.
  - apply Htimeout. reflexivity.
  - apply Hua. discriminate.
Defined.

Lemma C5_errors_short_circuit_witness :
  Invoke (failed_request broken) refused
    = (Returned {| rsp_Response := None; rsp_Request := Some (failed_request broken);
                   rsp_Err := Some broken |}, refused)
  ∧ Drop {| rsp_Response := None; rsp_Request := Some (failed_request broken);
            rsp_Err := Some broken |} refused = (Returned (Some broken), refused).
Proof.
  destruct (C5_errors_short_circuit (failed_request broken)
              {| rsp_Response := None; rsp_Request := Some (failed_request broken);
                 rsp_Err := Some broken |}
              broken broken NaN builder_of refused eq_refl eq_refl)
    as (Hinvoke & Hdrop & _).
  split; [exact Hinvoke | exact Hdrop].
Defined.

Lemma C6_WriteTo_copies_body_witness :
  ∃ wr' w',
    WriteTo (answer 200) builder_of (received one_line None) = (Returned (2, None, wr'), w')
    ∧ written wr' = one_line.
Proof.
  exact (proj1 (C6_WriteTo_copies_body (answer 200) sent_request
                  {| StatusCode := 200; Body := 0 |} 0%nat
                  {| content := one_line; failure := None; closed := false |}
                  builder_of (received one_line None)
                  eq_refl eq_refl eq_refl eq_refl eq_refl eq_refl eq_refl) I).
Defined.



Lemma C8_New_malformed_proxy_witness :
  New (Some bad_proxy)
  = (None, Some (errorString "net/url: invalid control character in URL")).
Proof.
  apply C8_New_malformed_proxy.
  - discriminate.
  - reflexivity.
Defined.

Lemma C9_default_headers_witness :
  ∃ req w1,
    build the_client (ByPostForm good_url {[ "q"%string := ["subtitles"%string] ]}) echo
      = (Returned req, w1)
    ∧ ∃ r, req_Request req = Some r
         ∧ req_Client req = Some the_client
         ∧ Header_Get "User-Agent" (ReqHeader r) = "subtitles-robot"%string
         ∧ Header_Get "Content-Type" (ReqHeader r)
           = "application/x-www-form-urlencoded"%string.
Proof.
  eexists _, _. split; [reflexivity |].
  eapply (C9_default_headers the_client
            (ByPostForm good_url {[ "q"%string := ["subtitles"%string] ]}) echo);
    reflexivity.
Defined.

(** C1: the requests that [PostJSON] and [PostForm] build for a URL that
    parses are built without error and carry the method GET, which is not
    POST: [makeRequest] passes the literal "GET" to
    [http.NewRequestWithContext] and drops its [method] argument. *)
Theorem C1_post_requests_carry_GET :
  (∃ req r w1,
     PostJSON the_client good_url (Finite 42) echo = (Returned req, w1)
     ∧ req_Err req = None ∧ req_Request req = Some r
     ∧ Method r = "GET"%string ∧ Method r ≠ "POST"%string)
  ∧ (∃ req r w1,
       PostForm the_client good_url {[ "q"%string := ["subtitles"%string] ]} echo
         = (Returned req, w1)
       ∧ req_Err req = None ∧ req_Request req = Some r
       ∧ Method r = "GET"%string ∧ Method r ≠ "POST"%string).
Proof.
  split; eexists _, _, _; (split; [reflexivity |]);
    repeat (split; [reflexivity |]); discriminate.
Qed.

(** C3 as stated fails on two paths.  When the transport fails, the request
    carries the cancel function of its context, [Invoke] and [Drop] return
    the transport's error, and the cancel function has not been invoked.
    When [PostJSON] cannot serialize the body, the request has no cancel
    function and no context exists after [Drop]. *)
Lemma C3_cancel_not_invoked :
  (∃ req w1 rsp w2 e w3 c,
     Get the_client good_url refused = (Returned req, w1)
     ∧ req_Cancel req = Some c
     ∧ Invoke req w1 = (Returned rsp, w2)
     ∧ Drop rsp w2 = (Returned (Some e), w3)
     ∧ cancellations c w3 = 0%nat
     ∧ cancellations c w3 ≠ 1%nat)
  ∧ (∃ req w1 rsp w2 e w3,
       PostJSON the_client good_url NaN echo = (Returned req, w1)
       ∧ req_Cancel req = None
       ∧ Invoke req w1 = (Returned rsp, w2)
       ∧ Drop rsp w2 = (Returned (Some e), w3)
       ∧ contexts w3 = []).
Proof.
  split.
  - eexists _, _, _, _, _, _, _.
    split; [reflexivity |]. split; [reflexivity |]. split; [reflexivity |].
    split; [reflexivity |]. split; [reflexivity |]. discriminate.
  - eexists _, _, _, _, _, _.
    split; [reflexivity |]. split; [reflexivity |]. split; [reflexivity |].
    split; reflexivity.
Qed.

(** ** The scenarios of the package's tests *)

Example TestGet :
  ∃ w', session (Get the_client good_url) Drop (serving 200 "{}") = (Returned None, w').
Proof. by eexists. Qed.

Example TestWriteTo :
  ∃ wr' w',
    session (Get the_client good_url) (fun rsp => WriteTo rsp builder_of) (serving 200 one_line)
      = (Returned (2, None, wr'), w')
    ∧ written wr' = one_line.
Proof. by eexists _, _. Qed.

Example Drop_not_found :
  ∃ w', session (Get the_client good_url) Drop not_found
        = (Returned (Some (errorString "Response 404, body=not found")), w').
Proof. by eexists. Qed.

Example WriteTo_full_disk :
  ∃ wr' w',
    session (Get the_client good_url) (fun rsp => WriteTo rsp full_disk) (serving 200 one_line)
      = (Returned (0, Some (errorString "no space left on device"), wr'), w').
Proof. by eexists _, _. Qed.

(** * Further properties of the package *)

Section Further.
Context `{NetURL}.

(** ** [New] *)

(** What [New] makes of options whose proxy it accepts. *)
Lemma New_fields (opts : Options) (c : Client) :
  New (Some opts) = (Some c, None) →
  Jar (client c) = Some cookiejar_New
  ∧ Timeout c = (if 0 <? opt_Timeout opts then opt_Timeout opts else time.Second * 30)
  ∧ UA c = (if String.eqb (opt_UA opts) EmptyString then DefaultUA else opt_UA opts)
  ∧ (if String.eqb (opt_Proxy opts) EmptyString
     then client_Transport (client c) = None
     else ∃ u, url_Parse (opt_Proxy opts) = inl u
             ∧ client_Transport (client c) = Some {| Proxy := u |}).
Proof.
  unfold New.
  destruct (String.eqb (opt_Proxy opts) EmptyString); cbn [negb].
  - intros [= <-].
    destruct (0 <? opt_Timeout opts), (String.eqb (opt_UA opts) EmptyString); done.
  - destruct (url_Parse (opt_Proxy opts)) as [u | err]; [| done].
    intros [= <-].
    destruct (0 <? opt_Timeout opts), (String.eqb (opt_UA opts) EmptyString);
      cbn; repeat split; by exists u.
Qed.

(** X1: [New] returns a client or an error, never both and never neither; the
    error is the one [url.Parse] gives for a proxy string that is not
    empty. *)
Theorem New_fails_iff_proxy_malformed (o : option Options) (e : error) :
  (New o = (None, Some e)
   ↔ ∃ opts, o = Some opts ∧ opt_Proxy opts ≠ EmptyString
           ∧ url_Parse (opt_Proxy opts) = inr e)
  ∧ (is_Some (fst (New o)) ↔ snd (New o) = None).
Proof.
  destruct o as [opts |]; cycle 1.
  { split; [split; [done | by intros (? & ? & _)] | done]. }
  unfold New.
  destruct (String.eqb_spec (opt_Proxy opts) EmptyString) as [Hempty | Hproxy]; cbn [negb].
  { cbn. split; [split; [done |] | done].
    intros (o' & [= <-] & Hne & _). done. }
  destruct (url_Parse (opt_Proxy opts)) as [u | err] eqn:Hparse; cbn.
  - split; [split; [done |] | done].
    intros (o' & [= <-] & _ & Herr). congruence.
  - split; [split |].
    + intros [= <-]. by exists opts.
    + intros (o' & [= <-] & _ & Herr). congruence.
    + split; [by intros [? ?] | done].
Qed.

(** X2: A client from [New] always has a cookie jar.  It has a transport exactly
    when the options name a proxy, and that transport's proxy is the parsed
    URL. *)
Theorem New_jar_and_proxy (opts : Options) (c : Client) :
  New (Some opts) = (Some c, None) →
  Jar (client c) = Some cookiejar_New
  ∧ (opt_Proxy opts = EmptyString → client_Transport (client c) = None)
  ∧ (opt_Proxy opts ≠ EmptyString →
       ∃ u, url_Parse (opt_Proxy opts) = inl u
          ∧ client_Transport (client c) = Some {| Proxy := u |}).
Proof.
  intros Hnew. destruct (New_fields opts c Hnew) as (Hjar & _ & _ & Hproxy).
  split; [done |].
  destruct (String.eqb_spec (opt_Proxy opts) EmptyString) as [Hempty | Hne];
    split; try done.
Qed.

(** ** Requests as the constructors return them *)

(** X3: A constructor always returns, and its request is of one of two shapes:
    built (no error, an HTTP request, a cancel function, the client) or
    failed (an error and nothing else). *)
Theorem Request_built_or_failed (c : Client) (b : Builder) (w : World) :
  ∃ req w1, build c b w = (Returned req, w1)
    ∧ (req_Err req = None ∧ is_Some (req_Request req) ∧ is_Some (req_Cancel req)
         ∧ req_Client req = Some c
       ∨ is_Some (req_Err req) ∧ req_Request req = None ∧ req_Cancel req = None
         ∧ req_Client req = None).
Proof.
  rewrite build_run. cbv zeta.
  destruct (marshal_error b) as [err |]; [| destruct (url_Parse (builder_url b)) as [u | err]];
    eexists _, _; (split; [reflexivity |]); cbn; eauto 10.
Qed.


(** X5: The header of a built request holds the User-Agent, the Content-Type for
    the two POST constructors, and nothing else. *)
Theorem built_request_header (c : Client) (b : Builder) (w w1 : World)
    (req : Request) (r : HttpRequest) :
  build c b w = (Returned req, w1) →
  req_Request req = Some r →
  ReqHeader r =
    match b with
    | ByGet _ => {[ "User-Agent"%string := [UA c] ]}
    | ByPostJSON _ _ =>
        {[ "User-Agent"%string := [UA c]; "Content-Type"%string := ["application/json"%string] ]}
    | ByPostForm _ _ =>
        {[ "User-Agent"%string := [UA c];
           "Content-Type"%string := ["application/x-www-form-urlencoded"%string] ]}
    end.
Proof.
  rewrite build_run. cbv zeta. intros Hrun Hr.
  destruct (marshal_error b) as [e |]; [by simplify_eq |].
  destruct (url_Parse (builder_url b)) as [u | e]; [| by simplify_eq].
  injection Hrun as <- _. injection Hr as <-.
  destruct b; unfold built_request;
    cbn [builder_content_type req_Header_Set plain_request ReqHeader]; unfold Header_Set.
  - done.
  - apply insert_insert_ne. done.
  - apply insert_insert_ne. done.
Qed.

(** X6: Options reach the requests: a request built by a client that [New] made
    from options carries the options' UA (the default one when that is
    empty), and its context has the options' timeout (30 seconds when that
    is not greater than 0). *)
Theorem options_reach_requests (opts : Options) (c : Client) (b : Builder)
    (w w1 : World) (req : Request) (r : HttpRequest) :
  New (Some opts) = (Some c, None) →
  build c b w = (Returned req, w1) →
  req_Request req = Some r →
  Header_Get "User-Agent" (ReqHeader r)
    = (if String.eqb (opt_UA opts) EmptyString then DefaultUA else opt_UA opts)
  ∧ ctx_timeout <$> contexts w1 !! Context r
    = Some (if 0 <? opt_Timeout opts then opt_Timeout opts else 30 * time.Second).
Proof.
  intros Hnew Hrun Hr.
  destruct (New_fields opts c Hnew) as (_ & Htimeout & <- & _).
  revert Hrun Hr. rewrite build_run. cbv zeta. intros Hrun Hr.
  destruct (marshal_error b) as [e |]; [by simplify_eq |].
  destruct (url_Parse (builder_url b)) as [u | e]; [| by simplify_eq].
  injection Hrun as <- <-. injection Hr as <-. split.
  - destruct b; unfold built_request;
      cbn [builder_content_type req_Header_Set plain_request ReqHeader];
      rewrite ?Header_Get_Set_ne by done; apply Header_Get_Set.
  - assert (HC : Context (built_request c b u (length (contexts w))) = length (contexts w))
      by by destruct b.
    rewrite HC. cbn. rewrite list_lookup_middle by done. cbn. rewrite Htimeout.
    by destruct (0 <? opt_Timeout opts).
Qed.

(** ** Consumers on a response with no error *)

Lemma read_stream_run b st w :
  bodies w !! b = Some st →
  read_stream b w =
  if closed st then (Returned (EmptyString, Some ErrBodyReadAfterClose), w)
  else (Returned (content st, failure st), set_bodies (<[b := drained st]>) w).
Proof. intros Hb. unfold read_stream. by rewrite Hb. Qed.

Lemma checkStatusCode_any rsp h st w :
  rsp_Response rsp = Some h →
  bodies w !! Body h = Some st →
  checkStatusCode rsp w =
  if decide (StatusCode h ≠ 200) then
    if closed st
    then (Returned (Some (status_error (StatusCode h) EmptyString)), w)
    else (Returned (Some (status_error (StatusCode h) (content st))),
          set_bodies (<[Body h := drained st]>) w)
  else (Returned None, w).
Proof.
  intros Hh Hb. unfold checkStatusCode, bind, deref, io_ReadAll, ret.
  rewrite Hh. cbn. case_decide; [| done].
  rewrite (read_stream_run _ st) by done. by destruct (closed st).
Qed.

Lemma only_body_refl b w : only_body b w w.
Proof. by repeat split. Qed.

Lemma only_body_insert b st w : only_body b w (set_bodies (<[b := st]>) w).
Proof.
  repeat split; cbn; [apply length_insert |].
  intros b' Hne. by apply list_lookup_insert_ne.
Qed.

Lemma only_body_alter b f w w1 :
  only_body b w w1 → only_body b w (set_bodies (alter f b) w1).
Proof.
  intros (Hs & Hn & Hc & Hl & Hb). repeat split; cbn; try done.
  - by rewrite length_alter.
  - intros b' Hne. rewrite list_lookup_alter_ne by done. by apply Hb.
Qed.

Lemma consume_shape u rsp req h c st w :
  rsp_Err rsp = None →
  rsp_Response rsp = Some h →
  rsp_Request rsp = Some req →
  req_Cancel req = Some c →
  bodies w !! Body h = Some st →
  ∃ out w1, consume u rsp w = (Returned out, cleaned c (Body h) w1)
          ∧ only_body (Body h) w w1.
Proof.
  intros Herr Hh Hreq Hc Hb.
  destruct u as [| T codec o | wr]; unfold consume;
    rewrite ?Drop_eq, ?JSON_eq, ?WriteTo_eq, Herr; unfold bind;
    rewrite (with_cleanup_run rsp req h c st) by done;
    rewrite ?(checkStatusCode_any rsp h st) by done.
  - case_decide; [destruct (closed st) |]; eexists _, _; (split; [reflexivity | cbv [ret]; cbn [fst snd]]);
      auto using only_body_refl, only_body_insert.
  - case_decide; [destruct (closed st) |];
      try (eexists _, _; (split; [reflexivity | cbv [ret]; cbn [fst snd]]);
           by auto using only_body_refl, only_body_insert).
    unfold Decoder_Decode, bind, ret. rewrite (read_stream_run _ st) by done.
    destruct (closed st); eexists _, _; (split; [reflexivity | cbv [ret]; cbn [fst snd]]);
      auto using only_body_refl, only_body_insert.
  - case_decide; [destruct (closed st) |];
      try (eexists _, _; (split; [reflexivity | cbv [ret]; cbn [fst snd]]);
           by auto using only_body_refl, only_body_insert).
    unfold io_Copy, bind, ret. rewrite (read_stream_run _ st) by done.
    destruct (closed st).
    + destruct (Write EmptyString wr) as [[n [e |]] wr']; eexists _, _;
        (split; [reflexivity | cbv [ret]; cbn [fst snd]]);
        auto using only_body_refl, only_body_alter.
    + destruct (Write (content st) wr) as [[n [e |]] wr']; eexists _, _;
        (split; [reflexivity | cbv [ret]; cbn [fst snd]]);
        auto using only_body_insert, only_body_alter.
Qed.

Lemma cleaned_body c b w w1 st :
  only_body b w w1 →
  bodies w !! b = Some st →
  ∃ st1, bodies w1 !! b = Some st1
       ∧ bodies (cleaned c b w1) !! b = Some (shut st1).
Proof.
  intros (_ & _ & _ & Hlen & _) Hb.
  destruct (lookup_lt_is_Some_2 (bodies w1) b) as [st1 Hst1].
  { rewrite Hlen. by eapply lookup_lt_Some. }
  exists st1. split; [done |]. cbn. by rewrite list_lookup_alter_eq, Hst1.
Qed.

(** X7: Whatever the status code, and whether decoding or writing succeeds or
    not, a consumer of a response with no error returns with the body
    closed. *)
Theorem consumer_closes_body (u : Consumer) (rsp : Response) (req : Request)
    (h : HttpResponse) (c : nat) (st : body_state) (w : World) :
  rsp_Err rsp = None →
  rsp_Response rsp = Some h →
  rsp_Request rsp = Some req →
  req_Cancel req = Some c →
  bodies w !! Body h = Some st →
  ∃ out w' st', consume u rsp w = (Returned out, w')
              ∧ bodies w' !! Body h = Some st' ∧ closed st' = true.
Proof.
  intros Herr Hh Hreq Hc Hb.
  destruct (consume_shape u rsp req h c st w) as (out & w1 & Hrun & Honly); try done.
  destruct (cleaned_body c (Body h) w w1 st Honly Hb) as (st1 & _ & Hshut).
  by eexists _, _, _.
Qed.

(** X8: A consumer sends nothing and touches no context but its request's and no
    body stream but its response's: the requests sent, the other contexts
    and the other streams are as before, and no context or stream is
    added. *)
Theorem consumer_frame (u : Consumer) (rsp : Response) (req : Request)
    (h : HttpResponse) (c : nat) (st : body_state) (w : World) :
  rsp_Err rsp = None →
  rsp_Response rsp = Some h →
  rsp_Request rsp = Some req →
  req_Cancel req = Some c →
  bodies w !! Body h = Some st →
  ∃ out w', consume u rsp w = (Returned out, w')
          ∧ sent w' = sent w
          ∧ length (contexts w') = length (contexts w)
          ∧ length (bodies w') = length (bodies w)
          ∧ (∀ c', c' ≠ c → contexts w' !! c' = contexts w !! c')
          ∧ (∀ b', b' ≠ Body h → bodies w' !! b' = bodies w !! b').
Proof.
  intros Herr Hh Hreq Hc Hb.
  destruct (consume_shape u rsp req h c st w)
    as (out & w1 & Hrun & Hsent & _ & Hctx & Hlen & Hother); try done.
  eexists _, _. split; [exact Hrun |]. cbn. rewrite !length_alter, Hctx.
  repeat split; try done.
  - intros c' Hne. by rewrite list_lookup_alter_ne.
  - intros b' Hne. rewrite list_lookup_alter_ne by done. by apply Hother.
Qed.

(** X9: [Drop] on status code 200 does not read the body: the stream keeps its
    bytes, and is closed. *)
Theorem Drop_200_leaves_body_unread (rsp : Response) (req : Request)
    (h : HttpResponse) (c : nat) (st : body_state) (w : World) :
  rsp_Err rsp = None →
  rsp_Response rsp = Some h →
  StatusCode h = 200 →
  rsp_Request rsp = Some req →
  req_Cancel req = Some c →
  bodies w !! Body h = Some st →
  ∃ w', Drop rsp w = (Returned None, w')
      ∧ bodies w' !! Body h
        = Some {| content := content st; failure := failure st; closed := true |}.
Proof.
  intros Herr Hh H200 Hreq Hc Hb.
  rewrite Drop_eq, Herr, (with_cleanup_run rsp req h c st) by done.
  rewrite (checkStatusCode_any rsp h st) by done.
  rewrite decide_False by (intros Hne; by apply Hne).
  eexists. split; [reflexivity |]. cbn. by rewrite list_lookup_alter_eq, Hb.
Qed.



(** ** Sessions *)

Lemma session_unfold {A} c b (use : Response → M A) w :
  session (build c b) use w =
  let n := length (contexts w) in
  let w1 := set_contexts (fun cs => cs ++ [fresh_ctx c]) w in
  match marshal_error b with
  | Some err => use (error_response err) w
  | None =>
      match url_Parse (builder_url b) with
      | inr err => use (error_response err) (set_contexts (alter invoked n) w1)
      | inl u =>
          let r := built_request c b u n in
          let req := {| req_Request := Some r; req_Err := None; req_Cancel := Some n;
                        req_Client := Some c |} in
          match network w (client c) (sent w) r with
          | Failed e =>
              use {| rsp_Response := None; rsp_Request := Some req; rsp_Err := Some e |}
                (log_sent r w1)
          | Answered status data fail =>
              use {| rsp_Response := Some {| StatusCode := status; Body := length (bodies w) |};
                     rsp_Request := Some req; rsp_Err := None |}
                (set_bodies
                   (fun bs => bs ++ [{| content := data; failure := fail; closed := false |}])
                   (log_sent r w1))
          end
      end
  end.
Proof.
  unfold session, bind at 1. rewrite build_run. cbv zeta.
  destruct (marshal_error b) as [err |]; [done |].
  destruct (url_Parse (builder_url b)) as [u | err]; [| done].
  unfold bind. rewrite Invoke_built. cbv zeta. cbn [network sent set_contexts bodies].
  by destruct (network w (client c) (sent w) _).
Qed.

(** X11: An error of construction (the body does not serialize, the URL does not
    parse) comes back from the consumer, whichever it is; nothing is sent
    and no body stream exists that did not before. *)
Theorem construction_error_surfaces (c : Client) (b : Builder) (u : Consumer)
    (w : World) (err : error) :
  marshal_error b = Some err
  ∨ marshal_error b = None ∧ url_Parse (builder_url b) = inr err →
  ∃ w3, session (build c b) (consume u) w = (Returned (Some err), w3)
      ∧ sent w3 = sent w ∧ bodies w3 = bodies w.
Proof.
  intros Hcase. rewrite session_unfold. cbv zeta.
  destruct Hcase as [-> | [-> ->]]; rewrite (consume_error _ _ err) by done; by eexists.
Qed.



(** The response of an answered session, ready for its consumer. *)
Lemma answered_ready c b url status data fail w :
  let n := length (contexts w) in
  let r := built_request c b url n in
  let req := {| req_Request := Some r; req_Err := None; req_Cancel := Some n;
                req_Client := Some c |} in
  let h := {| StatusCode := status; Body := length (bodies w) |} in
  let st := {| content := data; failure := fail; closed := false |} in
  let w2 := set_bodies (fun bs => bs ++ [st])
              (log_sent r (set_contexts (fun cs => cs ++ [fresh_ctx c]) w)) in
  bodies w2 !! Body h = Some st.
Proof. cbn. by apply list_lookup_middle. Qed.

(** X14: From the server to the caller of [Drop]: when the server answers, [Drop]
    returns nil for status code 200, and for any other status code the
    error made of that code and of the body the server sent. *)
Theorem session_Drop (c : Client) (b : Builder) (w : World) (url : URL)
    (status : Z) (data : string) (fail : option error) :
  marshal_error b = None →
  url_Parse (builder_url b) = inl url →
  (∀ r, network w (client c) (sent w) r = Answered status data fail) →
  ∃ w3, session (build c b) Drop w
        = (Returned (if decide (status = 200) then None
                     else Some (status_error status data)), w3).
Proof.
  intros Hm Hu Hnet. rewrite session_unfold, Hm, Hu. cbv zeta. rewrite Hnet.
  pose proof (answered_ready c b url status data fail w) as Hb. cbv zeta in Hb.
  rewrite Drop_eq. cbn [rsp_Err].
  erewrite with_cleanup_run by (done || exact Hb).
  erewrite checkStatusCode_run by (done || exact Hb). cbn [StatusCode content].
  destruct (decide (status = 200)) as [H200 | H200];
    [rewrite decide_False by (intros Hne; by apply Hne) | rewrite decide_True by done];
    by eexists.
Qed.

(** X15: From the server to the caller of [JSON]: when the server answers 200,
    [JSON] returns what the decoder makes of the body the server sent, its
    error included; for any other status code the target is left alone and
    the error is made of that code and of the body. *)
Theorem session_JSON `{JSONCodec T} (c : Client) (b : Builder) (o : T) (w : World)
    (url : URL) (status : Z) (data : string) (fail : option error) :
  marshal_error b = None →
  url_Parse (builder_url b) = inl url →
  (∀ r, network w (client c) (sent w) r = Answered status data fail) →
  ∃ w3, session (build c b) (fun rsp => JSON rsp o) w
        = (Returned (if decide (status = 200) then json_Decode data fail o
                     else (o, Some (status_error status data))), w3).
Proof.
  intros Hm Hu Hnet. rewrite session_unfold, Hm, Hu. cbv zeta. rewrite Hnet.
  pose proof (answered_ready c b url status data fail w) as Hb. cbv zeta in Hb.
  rewrite JSON_eq. cbn [rsp_Err].
  erewrite with_cleanup_run by (done || exact Hb). unfold bind.
  erewrite checkStatusCode_run by (done || exact Hb). cbn [StatusCode content Body].
  destruct (decide (status = 200)) as [H200 | H200];
    [rewrite decide_False by (intros Hne; by apply Hne) | rewrite decide_True by done];
    [| by eexists].
  unfold Decoder_Decode, bind, ret. erewrite read_stream_run by exact Hb.
  by eexists.
Qed.

(** X16: From the server to the caller of [WriteTo]: when the server answers 200
    and the writer takes the body, the writer receives the bytes the server
    sent and [WriteTo] returns their number, with the error that ended the
    body if there is one; for any other status code nothing is written and
    the error is made of that code and of the body. *)
Theorem session_WriteTo (c : Client) (b : Builder) (wr : Writer) (w : World)
    (url : URL) (status : Z) (data : string) (fail : option error) :
  marshal_error b = None →
  url_Parse (builder_url b) = inl url →
  (∀ r, network w (client c) (sent w) r = Answered status data fail) →
  fits data wr →
  ∃ wr' w3,
    session (build c b) (fun rsp => WriteTo rsp wr) w
    = (Returned (if decide (status = 200)
                 then (Z.of_nat (String.length data), fail, wr')
                 else (0, Some (status_error status data), wr)), w3)
    ∧ written wr' = written wr +:+ data.
Proof.
  intros Hm Hu Hnet Hfit. rewrite session_unfold, Hm, Hu. cbv zeta. rewrite Hnet.
  pose proof (answered_ready c b url status data fail w) as Hb. cbv zeta in Hb.
  rewrite WriteTo_eq. cbn [rsp_Err].
  erewrite with_cleanup_run by (done || exact Hb). unfold bind.
  erewrite checkStatusCode_run by (done || exact Hb). cbn [StatusCode content Body].
  destruct (Write_fits data wr Hfit) as (wr' & Hwrite & Hwritten).
  exists wr'.
  destruct (decide (status = 200)) as [H200 | H200];
    [rewrite decide_False by (intros Hne; by apply Hne) | rewrite decide_True by done];
    [| by eexists].
  unfold io_Copy, bind, ret. erewrite read_stream_run by exact Hb.
  cbn [closed content failure]. rewrite Hwrite. by eexists.
Qed.

Lemma lookup_old_after {A} (l : list A) (f : A → A) (x y : A) (i : nat) :
  l !! i = Some x → alter f (length l) (l ++ [y]) !! i = Some x.
Proof.
  intros Hi. pose proof (lookup_lt_Some _ _ _ Hi).
  rewrite list_lookup_alter_ne by lia. by rewrite lookup_app_l.
Qed.

(** X17: Sessions do not disturb each other: whatever happens in a session, the
    contexts (with their counts of cancel invocations) and the body streams
    that existed before it are as they were. *)
Theorem session_frame (c : Client) (b : Builder) (u : Consumer) (w : World) :
  ∃ out w3, session (build c b) (consume u) w = (Returned out, w3)
    ∧ (∀ c' st, contexts w !! c' = Some st → contexts w3 !! c' = Some st)
    ∧ (∀ b' st, bodies w !! b' = Some st → bodies w3 !! b' = Some st).
Proof.
  rewrite session_unfold. cbv zeta.
  destruct (marshal_error b) as [err |].
  { rewrite (consume_error _ _ err) by done. by eexists _, _. }
  destruct (url_Parse (builder_url b)) as [url | err].
  - set (n := length (contexts w)). set (r := built_request c b url n).
    destruct (network w (client c) (sent w) r) as [e | status data fail].
    + rewrite (consume_error _ _ e) by done. eexists _, _. split; [reflexivity |].
      cbn. split; [| done]. intros c' st Hc'. by apply lookup_app_l_Some.
    + edestruct (consume_shape u) as (out & w3 & -> & _ & _ & Hctx & _ & Hother);
        [done.. | |].
      * cbn. by apply list_lookup_middle.
      * eexists _, _. split; [reflexivity |]. cbn. rewrite Hctx. cbn. split.
        -- intros c' st Hc'. by apply lookup_old_after.
        -- intros b' st Hb'. pose proof (lookup_lt_Some _ _ _ Hb').
           cbn in Hother.
           rewrite list_lookup_alter_ne by lia. rewrite Hother by lia.
           cbn. by apply lookup_app_l_Some.
  - rewrite (consume_error _ _ err) by done. eexists _, _. split; [reflexivity |].
    cbn. split; [| done]. intros c' st Hc'. by apply lookup_old_after.
Qed.

(** ** The status error *)

Lemma fmt_d_inj (a b : Z) : fmt_d a = fmt_d b → a = b.
Proof.
  unfold fmt_d. intros Heq.
  assert (Hnn : ∀ z, Z.to_int z ≠ Decimal.Pos Decimal.Nil
                   ∧ Z.to_int z ≠ Decimal.Neg Decimal.Nil).
  { intros [| p | p]; cbn; split; try done; intros [= Hp];
      by apply DecimalPos.Unsigned.to_uint_nonnil in Hp. }
  apply (f_equal NilZero.int_of_string) in Heq.
  rewrite !NilZero.isi in Heq by apply Hnn.
  injection Heq as Heq. apply (f_equal Z.of_int) in Heq.
  by rewrite !DecimalZ.of_to in Heq.
Qed.

Lemma uint_no_comma (d : Decimal.uint) :
  Forall (fun a => a ≠ ","%char) (list_ascii_of_string (NilEmpty.string_of_uint d)).
Proof. induction d; cbn; constructor; done. Qed.

Lemma fmt_d_no_comma (z : Z) :
  Forall (fun a => a ≠ ","%char) (list_ascii_of_string (fmt_d z)).
Proof.
  assert (Hu : ∀ d, Forall (fun a => a ≠ ","%char)
                      (list_ascii_of_string (NilZero.string_of_uint d))).
  { intros d. destruct d; try apply (uint_no_comma (_ _)). cbn. by constructor. }
  unfold fmt_d. destruct (Z.to_int z) as [d | d]; cbn; [apply Hu |].
  constructor; [done | apply Hu].
Qed.

Lemma split_at_comma (s1 s2 t1 t2 : string) :
  Forall (fun a => a ≠ ","%char) (list_ascii_of_string s1) →
  Forall (fun a => a ≠ ","%char) (list_ascii_of_string s2) →
  s1 +:+ String "," t1 = s2 +:+ String "," t2 →
  s1 = s2 ∧ t1 = t2.
Proof.
  revert s2. induction s1 as [| a s1 IH]; intros [| b s2] H1 H2 Heq.
  - by injection Heq as ->.
  - injection Heq as <- _. by inversion H2.
  - injection Heq as -> _. by inversion H1.
  - injection Heq as -> Heq. inversion H1; inversion H2; subst.
    destruct (IH s2) as [-> ->]; done.
Qed.

(** X18: The message of a status error tells its status code and its body text:
    two status errors are equal only if they are made of the same code and
    the same text. *)
Theorem status_error_inj (code code' : Z) (data data' : string) :
  status_error code data = status_error code' data' ↔ code = code' ∧ data = data'.
Proof.
  split; [| by intros [-> ->]].
  unfold status_error. intros [= Heq].
  change (fmt_d code +:+ String "," (" body=" +:+ data)
          = fmt_d code' +:+ String "," (" body=" +:+ data')) in Heq.
  apply split_at_comma in Heq as [Hcode Hdata]; [| apply fmt_d_no_comma..].
  split; [by apply fmt_d_inj | by apply (inj (String.app " body="))].
Qed.

End Further.

(** ** The further properties on examples *)

Lemma New_jar_and_proxy_witness :
  Jar (client proxied_client) = Some cookiejar_New
  ∧ (opt_Proxy proxied = EmptyString → client_Transport (client proxied_client) = None)
  ∧ (opt_Proxy proxied ≠ EmptyString →
       ∃ u, url_Parse (opt_Proxy proxied) = inl u
          ∧ client_Transport (client proxied_client) = Some {| Proxy := u |}).
Proof. exact (New_jar_and_proxy proxied proxied_client eq_refl). Defined.


Lemma built_request_header_witness :
  ∃ req w1 r,
    build the_client (ByPostForm good_url query) echo = (Returned req, w1)
    ∧ req_Request req = Some r
    ∧ ReqHeader r
      = {[ "User-Agent"%string := ["subtitles-robot"%string];
           "Content-Type"%string := ["application/x-www-form-urlencoded"%string] ]}.
Proof.
  eexists _, _, _. split; [reflexivity |]. split; [reflexivity |].
  exact (built_request_header the_client (ByPostForm good_url query) echo _ _ _
           eq_refl eq_refl).
Defined.

Lemma options_reach_requests_witness :
  ∃ c req w1 r,
    New (Some options) = (Some c, None)
    ∧ build c (ByGet good_url) refused = (Returned req, w1)
    ∧ req_Request req = Some r
    ∧ Header_Get "User-Agent" (ReqHeader r) = "subtitles-robot"%string
    ∧ ctx_timeout <$> contexts w1 !! Context r = Some (5 * time.Second).
Proof.
  eexists _, _, _, _. split; [reflexivity |]. split; [reflexivity |].
  split; [reflexivity |].
  exact (options_reach_requests options _ (ByGet good_url) refused _ _ _
           eq_refl eq_refl eq_refl).
Defined.

Lemma consumer_closes_body_witness :
  ∃ out w' st',
    consume (ByJSON NaN) (answer 200) (received "not json" None) = (Returned out, w')
    ∧ bodies w' !! 0%nat = Some st' ∧ closed st' = true.
Proof.
  exact (consumer_closes_body (ByJSON NaN) (answer 200) sent_request
           {| StatusCode := 200; Body := 0 |} 0%nat
           {| content := "not json"; failure := None; closed := false |}
           (received "not json" None) eq_refl eq_refl eq_refl eq_refl eq_refl).
Defined.

Lemma consumer_frame_witness :
  ∃ out w',
    consume (ByWriteTo full_disk) (answer 200) (received one_line None) = (Returned out, w')
    ∧ sent w' = sent (received one_line None)
    ∧ length (contexts w') = 1%nat
    ∧ length (bodies w') = 1%nat
    ∧ (∀ c', c' ≠ 0%nat → contexts w' !! c' = contexts (received one_line None) !! c')
    ∧ (∀ b', b' ≠ 0%nat → bodies w' !! b' = bodies (received one_line None) !! b').
Proof.
  exact (consumer_frame (ByWriteTo full_disk) (answer 200) sent_request
           {| StatusCode := 200; Body := 0 |} 0%nat
           {| content := one_line; failure := None; closed := false |}
           (received one_line None) eq_refl eq_refl eq_refl eq_refl eq_refl).
Defined.

Lemma Drop_200_leaves_body_unread_witness :
  ∃ w', Drop (answer 200) (received one_line None) = (Returned None, w')
      ∧ bodies w' !! 0%nat
        = Some {| content := one_line; failure := None; closed := true |}.
Proof.
  exact (Drop_200_leaves_body_unread (answer 200) sent_request
           {| StatusCode := 200; Body := 0 |} 0%nat
           {| content := one_line; failure := None; closed := false |}
           (received one_line None) eq_refl eq_refl eq_refl eq_refl eq_refl eq_refl).
Defined.


Lemma construction_error_surfaces_witness :
  ∃ w3, session (build the_client (ByPostJSON good_url NaN)) (consume ByDrop) echo
        = (Returned (Some broken), w3)
      ∧ sent w3 = sent echo ∧ bodies w3 = bodies echo.
Proof.
  exact (construction_error_surfaces the_client (ByPostJSON good_url NaN) ByDrop echo broken
           (or_introl eq_refl)).
Defined.



Lemma session_Drop_witness :
  ∃ w3, session (build the_client (ByGet good_url)) Drop not_found
        = (Returned (Some (status_error 404 "not found")), w3).
Proof.
  exact (session_Drop the_client (ByGet good_url) not_found good_url 404 "not found" None
           eq_refl eq_refl (fun _ => eq_refl)).
Defined.

Lemma session_JSON_witness :
  ∃ w3, session (build the_client (ByGet good_url)) (fun rsp => JSON rsp NaN)
          (serving 200 "12343")
        = (Returned (Finite 12343, None), w3).
Proof.
  exact (session_JSON the_client (ByGet good_url) NaN (serving 200 "12343") good_url
           200 "12343" None eq_refl eq_refl (fun _ => eq_refl)).
Defined.

Lemma session_WriteTo_witness :
  ∃ wr' w3,
    session (build the_client (ByGet good_url)) (fun rsp => WriteTo rsp builder_of)
      (serving 200 one_line)
    = (Returned (2, None, wr'), w3)
    ∧ written wr' = one_line.
Proof.
  exact (session_WriteTo the_client (ByGet good_url) builder_of (serving 200 one_line)
           good_url 200 one_line None eq_refl eq_refl (fun _ => eq_refl) I).
Defined.
